(** * aws-signing-proxy: the signing director and the start-up sequence

    A shallow embedding of [main.go].  The program is a reverse proxy whose
    [director] closure rewrites the destination of every inbound request,
    buffers its body, has aws-sdk-go sign a side request built from it and
    copies the signed headers back.  [main] validates the configuration and
    the credentials before it opens the listener.

    The Go packages the program calls are kept in modules named after them.
    What the standard library does ([ioutil.ReadAll], [bytes.NewBuffer],
    assignment into a map) is written out; what aws-sdk-go's signer computes,
    what [request.New] makes of the path and what [url.Parse] answers is
    left open: they are variables of the sections below, so every theorem
    holds for any signer, any version of the SDK and any URL parser. *)

From Stdlib Require Import ZArith Ascii String.
From stdpp Require Import base strings list gmap fin_maps pretty.

(** Go's [error], identified with the message [Error()] returns. *)
Definition error := string.

(** Addresses of [url.URL] objects: [*url.URL]. *)
Definition loc := nat.

(** The line feed that ends the formats given to [log.Printf] and that
    [fmt.Println] appends. *)
Definition LF : string := String "010"%char EmptyString.

(** ** io, io/ioutil, bytes *)

Module io.
(** An [io.Reader] is described by what its successive [Read] calls will
    deliver: some bytes, the end of the stream, or an error. *)
Inductive Reader :=
| EOF
| Fail (e : error)
| Data (p : list Byte.byte) (rest : Reader).
End io.

Module bytes.
(** [bytes.NewBuffer(buf)]: a reader over [buf] that then reports EOF. *)
Definition NewBuffer (buf : list Byte.byte) : io.Reader := io.Data buf io.EOF.
End bytes.

Module ioutil.
(** [ioutil.ReadAll(r)] reads until EOF or an error and returns the data
    it read; EOF is not reported as an error. *)
Fixpoint ReadAll (r : io.Reader) : list Byte.byte * option error :=
  match r with
  | io.EOF => ([], None)
  | io.Fail e => ([], Some e)
  | io.Data p rest => let '(b, err) := ReadAll rest in (p ++ b, err)
  end.

(** [ioutil.NopCloser(r)] only adds a [Close] that does nothing. *)
Definition NopCloser (r : io.Reader) : io.Reader := r.
End ioutil.

(** ** net/url *)

Module url.
(** [url.Userinfo]: a user name and, when one is set, a password. *)
Record Userinfo := mkUserinfo {
  username : string;
  password : string;
  passwordSet : bool }.

(** [url.URL], field by field; [User] is a pointer that may be nil. *)
Record URL := mkURL {
  Scheme : string;
  Opaque : string;
  User : option Userinfo;
  Host : string;
  Path : string;
  RawPath : string;
  ForceQuery : bool;
  RawQuery : string;
  Fragment : string }.

Definition empty : URL :=
  mkURL EmptyString EmptyString None EmptyString EmptyString EmptyString false
        EmptyString EmptyString.

Definition with_Scheme (s : string) (u : URL) : URL :=
  mkURL s (Opaque u) (User u) (Host u) (Path u) (RawPath u) (ForceQuery u)
        (RawQuery u) (Fragment u).
Definition with_Host (h : string) (u : URL) : URL :=
  mkURL (Scheme u) (Opaque u) (User u) h (Path u) (RawPath u) (ForceQuery u)
        (RawQuery u) (Fragment u).
Definition with_RawQuery (q : string) (u : URL) : URL :=
  mkURL (Scheme u) (Opaque u) (User u) (Host u) (Path u) (RawPath u) (ForceQuery u)
        q (Fragment u).

(** The URL objects in memory.  Requests hold a [*url.URL], so two
    requests may hold the same object. *)
Definition Store := loc → URL.

Definition put (l : loc) (u : URL) (σ : Store) : Store :=
  λ l', if decide (l' = l) then u else σ l'.

(** A new object is placed at an address that is not in use; the only
    address the director holds is the one of the inbound request. *)
Definition fresh (used : loc) : loc := S used.
End url.

(** ** net/http *)

Module http.
Record Request := mkRequest {
  Method : string;
  URL : loc;
  Header : gmap string (list string);
  Body : option io.Reader;
  Host : string }.

Definition with_URL (u : loc) (r : Request) : Request :=
  mkRequest (Method r) u (Header r) (Body r) (Host r).
Definition with_Header (h : gmap string (list string)) (r : Request) : Request :=
  mkRequest (Method r) (URL r) h (Body r) (Host r).
Definition with_Body (b : option io.Reader) (r : Request) : Request :=
  mkRequest (Method r) (URL r) (Header r) b (Host r).
Definition with_Host (h : string) (r : Request) : Request :=
  mkRequest (Method r) (URL r) (Header r) (Body r) h.
End http.

(** ** aws-sdk-go: credentials, aws, client/metadata *)

Module credentials.
Record Value := mkValue {
  AccessKeyID : string;
  SecretAccessKey : string;
  SessionToken : string }.

(** A [*credentials.Credentials] is used through [Get] alone: it is
    described by the snapshot, or the error, that [Get] answers with. *)
Definition Credentials := (error + Value)%type.
Definition Get (c : Credentials) : error + Value := c.
End credentials.

Module aws.
Record Config := mkConfig {
  Credentials : credentials.Credentials;
  Region : string }.
End aws.

Module metadata.
Record ClientInfo := mkClientInfo {
  ServiceName : string;
  SigningName : string;
  SigningRegion : string;
  Endpoint : string }.
End metadata.

(** ** aws-sdk-go: request *)

Module request.
Record Operation := mkOperation {
  Name : string;
  HTTPMethod : string;
  HTTPPath : string }.

Record Request := mkRequest {
  Config : aws.Config;
  ClientInfo : metadata.ClientInfo;
  Time : Z;
  ExpireTime : Z;
  HTTPRequest : http.Request;
  Body : list Byte.byte;
  Error : option error }.

Definition with_HTTPRequest (h : http.Request) (r : Request) : Request :=
  mkRequest (Config r) (ClientInfo r) (Time r) (ExpireTime r) h (Body r) (Error r).
Definition with_Body (b : list Byte.byte) (r : Request) : Request :=
  mkRequest (Config r) (ClientInfo r) (Time r) (ExpireTime r) (HTTPRequest r) b (Error r).
Definition with_Error (e : option error) (r : Request) : Request :=
  mkRequest (Config r) (ClientInfo r) (Time r) (ExpireTime r) (HTTPRequest r) (Body r) e.

(** What a handler run by [Sign] can reach from the [*Request] it is
    given, by value.  The fields are those the comment before the body
    buffering in [director] lists as referenced during [awsReq.Sign()];
    [vURL] is the content of the object [HTTPRequest.URL] points to, every
    field of it.  [vTime] is the clock of the run: [request.New] reads it
    into [Time], and a signer that asks for the time itself reads the same.
    The log level and the logger of the configuration are left out:
    [aws.NewConfig()] sets neither and the director does not either. *)
Record View := mkView {
  vCredentials : credentials.Credentials;
  vRegion : string;
  vServiceName : string;
  vSigningName : string;
  vSigningRegion : string;
  vMethod : string;
  vURL : url.URL;
  vHost : string;
  vHeader : gmap string (list string);
  vTime : Z;
  vExpireTime : Z;
  vBody : list Byte.byte }.

(** What a handler leaves behind: it works on the request in place.  The
    signer writes the headers of [HTTPRequest], stores the query string it
    has canonicalized in [RawQuery] of the URL object [HTTPRequest.URL]
    points to, the one field of the URL it writes, and sets [Error]. *)
Record Effect := mkEffect {
  eRawQuery : string;
  eHeader : gmap string (list string);
  eError : option error }.

Definition Handler := View → Effect.

(** [request.Handlers]: the director fills the [Sign] list alone. *)
Record Handlers := mkHandlers { Sign_ : list Handler }.

Definition PushBack (h : Handler) (l : list Handler) : list Handler := l ++ [h].

Definition view (σ : url.Store) (r : Request) : View :=
  mkView (aws.Credentials (Config r)) (aws.Region (Config r))
         (metadata.ServiceName (ClientInfo r)) (metadata.SigningName (ClientInfo r))
         (metadata.SigningRegion (ClientInfo r))
         (http.Method (HTTPRequest r)) (σ (http.URL (HTTPRequest r)))
         (http.Host (HTTPRequest r)) (http.Header (HTTPRequest r))
         (Time r) (ExpireTime r) (Body r).

(** One handler applied to the request in place. *)
Definition apply (h : Handler) (s : url.Store * Request) : url.Store * Request :=
  let '(σ, r) := s in
  let e := h (view σ r) in
  (url.put (http.URL (HTTPRequest r))
           (url.with_RawQuery (eRawQuery e) (σ (http.URL (HTTPRequest r)))) σ,
   with_Error (eError e) (with_HTTPRequest (http.with_Header (eHeader e) (HTTPRequest r)) r)).

(** [HandlerList.Run]: the handlers in the order they were pushed. *)
Definition Run (l : list Handler) (s : url.Store * Request) : url.Store * Request :=
  foldl (λ s h, apply h s) s l.

(** [r.SetBufferBody(buf)]. *)
Definition SetBufferBody (buf : list Byte.byte) (r : Request) : Request := with_Body buf r.

Section New.
(** What [request.New] makes of the endpoint of the client and the path of
    the operation: the URL of the new request, or the error it keeps.  The
    versions of the SDK differ here: before v1.40 the two are joined and
    given to [url.Parse], which may refuse the path; later the endpoint
    alone is parsed and the path appended to the result. *)
Variable newURL : string → string → error + url.URL.

(** [request.New(cfg, clientInfo, handlers, nil, operation, nil, nil)]:
    the method defaults to POST, the URL is made from the endpoint and the
    operation's path (a failure is kept in [Error]), the headers are empty
    and so is the body.  [now] is what [time.Now()] answers. *)
Definition New (cfg : aws.Config) (clientInfo : metadata.ClientInfo)
    (operation : Operation) (now : Z) (σ : url.Store) (a : loc)
    : url.Store * Request :=
  let method := if decide (HTTPMethod operation = EmptyString) then "POST" else HTTPMethod operation in
  let '(u, err) :=
    match newURL (metadata.Endpoint clientInfo) (HTTPPath operation) with
    | inr u => (u, None)
    | inl e => (url.empty, Some ("InvalidEndpointURL: invalid endpoint uri" +:+ LF +:+ "caused by: " +:+ e))
    end in
  let httpReq := http.mkRequest method a ∅ None EmptyString in
  (url.put a u σ,
   SetBufferBody [] (mkRequest cfg clientInfo now 0 httpReq [] err)).
End New.

(** [r.Sign()]: nothing is registered to validate or build, so [Build]
    only reports an error the request already carries; otherwise the
    [Sign] handlers run and the error they leave is returned. *)
Definition Sign (hs : Handlers) (s : url.Store * Request)
    : url.Store * Request * option error :=
  match Error (snd s) with
  | Some e => (s, Some e)
  | None => let s' := Run (Sign_ hs) s in (s', Error (snd s'))
  end.
End request.

(** ** The director of [NewSigningProxy] *)

(** The loop that writes the signed headers into the original request,
    [for k, v := range signed { h[k] = v }], run over the entries in the
    order [l].  Go does not fix the order in which [range] visits a map. *)
Definition mergeInOrder (l : list (string * list string))
    (h : gmap string (list string)) : gmap string (list string) :=
  foldl (λ h kv, <[kv.1 := kv.2]> h) h l.

Definition mergeHeaders (signed h : gmap string (list string))
    : gmap string (list string) :=
  mergeInOrder (map_to_list signed) h.

(** The variables of one run of the director: the URL objects, the inbound
    request [req], the SDK request [awsReq] and what was given to
    [log.Printf]. *)
Record Frame := mkFrame {
  store : url.Store;
  req : http.Request;
  awsReq : request.Request;
  logged : list string }.

Section SigningProxy.
(** See [request.New]. *)
Variable newURL : string → string → error + url.URL.
(** [v4.SignSDKRequest] *)
Variable SignSDKRequest : request.Handler.

(** The parameters of [NewSigningProxy]. *)
Variable target : url.URL.
Variable creds : credentials.Credentials.
Variable region : string.

(** Rewrite request to desired server host. *)
Definition rewriteDestination (σ : url.Store) (r : http.Request)
    : url.Store * http.Request :=
  let σ1 := url.put (http.URL r) (url.with_Scheme (url.Scheme target) (σ (http.URL r))) σ in
  let σ2 := url.put (http.URL r) (url.with_Host (url.Host target) (σ1 (http.URL r))) σ1 in
  (σ2, http.with_Host (url.Host target) r).

Definition config : aws.Config := aws.mkConfig creds region.

Definition clientInfo : metadata.ClientInfo :=
  metadata.mkClientInfo "es" EmptyString EmptyString EmptyString.

Definition operation (σ : url.Store) (r : http.Request) : request.Operation :=
  request.mkOperation EmptyString (http.Method r) (url.Path (σ (http.URL r))).

Definition handlers : request.Handlers :=
  request.mkHandlers (request.PushBack SignSDKRequest []).

(** The destination rewritten and [awsReq] made by [request.New]. *)
Definition prepare (σ : url.Store) (r : http.Request) (now : Z) : Frame :=
  let '(σ1, r1) := rewriteDestination σ r in
  let '(σ2, a) :=
    request.New newURL config clientInfo (operation σ1 r1) now σ1
                (url.fresh (http.URL r1)) in
  mkFrame σ2 r1 a [].

(** Set the body in [awsReq] for the body digest and replace [req.Body],
    which the read drains, with a copy. *)
Definition bufferBody (f : Frame) : Frame :=
  match http.Body (req f) with
  | Some body =>
      let '(buf, err) := ioutil.ReadAll body in
      let lg :=
        match err with
        | Some e => logged f ++ ["error reading request body: " +:+ e +:+ LF]
        | None => logged f
        end in
      mkFrame (store f)
              (http.with_Body (Some (ioutil.NopCloser (bytes.NewBuffer buf))) (req f))
              (request.SetBufferBody buf (awsReq f))
              lg
  | None => f
  end.

(** [awsReq.HTTPRequest.URL = req.URL]: the pointer is copied, both
    requests hold the same URL object from here on. *)
Definition shareURL (f : Frame) : Frame :=
  mkFrame (store f) (req f)
          (request.with_HTTPRequest
             (http.with_URL (http.URL (req f)) (request.HTTPRequest (awsReq f)))
             (awsReq f))
          (logged f).

(** The frame in which [awsReq.Sign()] is called. *)
Definition beforeSign (σ : url.Store) (r : http.Request) (now : Z) : Frame :=
  shareURL (bufferBody (prepare σ r now)).

(** Perform the signing, updating [awsReq] in place. *)
Definition sign (f : Frame) : Frame * option error :=
  let '(σ', a', err) := request.Sign handlers (store f, awsReq f) in
  let lg :=
    match err with
    | Some e => logged f ++ ["error signing: " +:+ e +:+ LF]
    | None => logged f
    end in
  (mkFrame σ' (req f) a' lg, err).

(** Write the signed headers into the original request. *)
Definition writeSignedHeaders (f : Frame) : Frame :=
  mkFrame (store f)
          (http.with_Header
             (mergeHeaders (http.Header (request.HTTPRequest (awsReq f)))
                           (http.Header (req f)))
             (req f))
          (awsReq f) (logged f).

Definition director (σ : url.Store) (r : http.Request) (now : Z) : Frame :=
  writeSignedHeaders (sign (beforeSign σ r now)).1.

(** What [awsReq.Sign()] returned in that run. *)
Definition signError (σ : url.Store) (r : http.Request) (now : Z) : option error :=
  (sign (beforeSign σ r now)).2.

(** The signed header set: [awsReq.HTTPRequest.Header] once
    [awsReq.Sign()] has returned. *)
Definition signedHeader (σ : url.Store) (r : http.Request) (now : Z)
    : gmap string (list string) :=
  http.Header (request.HTTPRequest (awsReq (sign (beforeSign σ r now)).1)).

(** What the signing handler is given when it runs. *)
Definition signedView (σ : url.Store) (r : http.Request) (now : Z) : request.View :=
  let f := beforeSign σ r now in request.view (store f) (awsReq f).
End SigningProxy.

(** ** What the director hands to the SDK, in closed form *)

(** The bytes a request carries: what reading its body to the end
    delivers, nothing when it has no body. *)
Definition payload (r : http.Request) : list Byte.byte :=
  match http.Body r with
  | Some body => (ioutil.ReadAll body).1
  | None => []
  end.

(** The URL object of the inbound request once the destination is
    rewritten. *)
Definition rewritten (target u : url.URL) : url.URL :=
  url.with_Host (url.Host target) (url.with_Scheme (url.Scheme target) u).


(** The method [request.New] gives the SDK request. *)
Definition sdkMethod (r : http.Request) : string :=
  if decide (http.Method r = EmptyString) then "POST" else http.Method r.

(** The error the SDK request is born with, if [request.New] finds one in
    the path of the inbound request. *)
Definition sdkError (newURL : string → string → error + url.URL)
    (σ : url.Store) (r : http.Request) : option error :=
  match newURL EmptyString (url.Path (σ (http.URL r))) with
  | inr _ => None
  | inl e => Some ("InvalidEndpointURL: invalid endpoint uri" +:+ LF +:+ "caused by: " +:+ e)
  end.

(** ** [main]: start-up *)

Record configuration := mkConfiguration {
  Target : string;
  Port : Z;
  ListenAddress : string;
  Region : string;
  FlushInterval : Z;
  IdleConnTimeout : Z;
  DialTimeout : Z;
  DialKeepAlive : Z }.

(** What [main] does that can be seen from outside, in order. *)
Inductive Action :=
| Println (s : string)
| Printf (s : string)
| ListenAndServe (addr : string) (target : url.URL)
                 (creds : credentials.Credentials) (region : string).

Section Main.
Variable url_Parse : string → error + url.URL.

(** [unmarshal] is what [viper.Unmarshal(&config)] leaves in [config] and
    the error it returns; [credChain] is the chain [defaults.CredChain]
    builds. *)
Definition main (unmarshal : configuration * option error)
    (credChain : credentials.Credentials) : list Action :=
  let '(config, err) := unmarshal in
  match err with
  | Some _ => [Println "Could not decode config!"]
  | None =>
    if decide (Target config = EmptyString) then
      [Println "No proxy target set. Please set this either in the config file or using the --target flag"]
    else
      match url_Parse (Target config) with
      | inl e => [Println e]
      | inr targetURL =>
        match credentials.Get credChain with
        | inl e => [Println e]
        | inr _ =>
          let listenString := ListenAddress config +:+ ":" +:+ pretty (Port config) in
          [Printf ("Listening on " +:+ listenString +:+ LF);
           ListenAndServe listenString targetURL credChain (Region config)]
        end
      end
  end.
End Main.

(** [main] gets as far as calling [http.ListenAndServe]. *)
Definition callsListenAndServe (t : list Action) : Prop :=
  ∃ addr target creds region, ListenAndServe addr target creds region ∈ t.

(** [http.ListenAndServe] binds the address before it serves, and [main]
    drops the error it returns.  [bind addr] is the error of binding
    [addr], none when the address can be bound: a listener is open when
    the call is made on an address that can be. *)
Definition opensListener (bind : string → option error) (t : list Action) : Prop :=
  ∃ addr target creds region,
    ListenAndServe addr target creds region ∈ t ∧ bind addr = None.

(** The cases in which start-up stops. *)
Definition fatal (url_Parse : string → error + url.URL)
    (unmarshal : configuration * option error)
    (credChain : credentials.Credentials) : Prop :=
  unmarshal.2 ≠ None
  ∨ Target unmarshal.1 = EmptyString
  ∨ (∃ e, url_Parse (Target unmarshal.1) = inl e)
  ∨ (∃ e, credentials.Get credChain = inl e).

(** ** Concrete parsers, handlers and requests

    Instances of the open parts, used to run the director and [main] on
    concrete inputs. *)

Module Example.
(** A parser that knows one absolute URL, takes what starts with a slash
    as a path and refuses everything else. *)
Definition url_Parse (s : string) : error + url.URL :=
  if decide (s = "https://search.example.com") then
    inr (url.with_Host "search.example.com" (url.with_Scheme "https" url.empty))
  else
    match s with
    | String "/"%char _ =>
        inr (url.mkURL EmptyString EmptyString None EmptyString s EmptyString false
               EmptyString EmptyString)
    | _ => inl ("parse " +:+ s +:+ ": invalid URI for request")
    end.

(** [request.New] as the SDK had it before v1.40: the endpoint and the path
    are joined and parsed. *)
Definition newURL (endpoint path : string) : error + url.URL :=
  url_Parse (endpoint +:+ path).

Definition target : url.URL :=
  url.with_Host "search.example.com" (url.with_Scheme "https" url.empty).

Definition value : credentials.Value :=
  credentials.mkValue "AKIDEXAMPLE" "wJalrXUtnFEMI/K7MDENG/bPxRfiCYEXAMPLEKEY" EmptyString.

(** The path as it is signed: the encoded form when the URL holds one, as
    [EscapedPath] answers for a raw path that is an encoding of the path. *)
Definition escapedPath (u : url.URL) : string :=
  if decide (url.RawPath u = EmptyString) then url.Path u else url.RawPath u.

(** A handler that fails when no credentials can be had and otherwise
    writes a date header and an authorization header naming what it
    signed; it stores the query string back as it found it. *)
Definition markSigner : request.Handler := λ v,
  match credentials.Get (request.vCredentials v) with
  | inl e => request.mkEffect (url.RawQuery (request.vURL v)) (request.vHeader v) (Some e)
  | inr c =>
      request.mkEffect (url.RawQuery (request.vURL v))
        (<["Authorization" :=
             ["Credential=" +:+ credentials.AccessKeyID c +:+ "/" +:+ request.vRegion v
              +:+ "/" +:+ request.vServiceName v +:+ ", Signed="
              +:+ request.vMethod v +:+ " " +:+ url.Host (request.vURL v)
              +:+ escapedPath (request.vURL v) +:+ "?" +:+ url.RawQuery (request.vURL v)]]>
           (<["X-Amz-Date" := [pretty (request.vTime v)]]> (request.vHeader v)))
        None
  end.

Fixpoint plusToPercent20 (s : string) : string :=
  match s with
  | EmptyString => EmptyString
  | String c s' =>
      if Ascii.eqb c "+" then "%20" +:+ plusToPercent20 s'
      else String c (plusToPercent20 s')
  end.

(** A handler that, as the v4 signer of aws-sdk-go does while it builds
    the canonical string, stores the re-encoded query string in the URL of
    the request it signs: here every plus sign becomes [%20]. *)
Definition canonSigner : request.Handler := λ v,
  let e := markSigner v in
  request.mkEffect (plusToPercent20 (url.RawQuery (request.vURL v)))
    (request.eHeader e) (request.eError e).


(** The URL of a request for [path] with the query [q=a+b], as the server
    hands it to the proxy. *)
Definition origin (scheme host path rawPath : string) : url.URL :=
  url.mkURL scheme EmptyString None host path rawPath false "q=a+b" EmptyString.

(** Every address holds the URL of [GET /_search?q=a+b] as a client
    sent it to the proxy. *)
Definition urls : url.Store :=
  λ _, origin "http" "localhost:8080" "/_search" EmptyString.

Definition get : http.Request :=
  http.mkRequest "GET" 0 {["Accept" := ["*/*"]]} None "localhost:8080".

Definition hello : list Byte.byte := [Byte.x68; Byte.x65; Byte.x6c; Byte.x6c; Byte.x6f].

(** A body that arrives in two pieces. *)
Definition post : http.Request :=
  http.mkRequest "POST" 0 {["Content-Type" := ["application/json"]]}
    (Some (io.Data [Byte.x68; Byte.x65] (io.Data [Byte.x6c; Byte.x6c; Byte.x6f] io.EOF)))
    "localhost:8080".


(** A body whose connection breaks after two bytes. *)
Definition broken : http.Request :=
  http.mkRequest "POST" 0 ∅
    (Some (io.Data [Byte.x68; Byte.x65] (io.Fail "unexpected EOF")))
    "localhost:8080".




Definition cfg : configuration :=
  mkConfiguration "https://search.example.com" 8080 EmptyString "us-east-1" 0 90 30 30.

(** The same configuration with the port -1, and a system on which that
    port cannot be bound. *)
Definition badPort : configuration :=
  mkConfiguration "https://search.example.com" (-1) EmptyString "us-east-1" 0 90 30 30.
Definition bind (addr : string) : option error :=
  if decide (addr = ":-1") then Some "listen tcp: address -1: invalid port" else None.
End Example.

(** ** time, net, net/http/httputil: what [NewSigningProxy] builds *)

Module time.
(** Go's [int64]: the integer [z] as 64 bits in two's complement hold it.
    Integer arithmetic wraps around silently. *)
Definition int64 (z : Z) : Z := (z + 2 ^ 63) mod 2 ^ 64 - 2 ^ 63.

(** The conversion [time.Duration(n)]: a [Duration] is an [int64] count of
    nanoseconds. *)
Definition Duration (n : Z) : Z := int64 n.

Definition Second : Z := 1000000000.

(** [d1 * d2] on durations. *)
Definition mul (d1 d2 : Z) : Z := int64 (d1 * d2).
End time.

Module net.
Record Dialer := mkDialer {
  Timeout : Z;
  KeepAlive : Z;
  DualStack : bool }.
End net.

Module httputil.
(** The value of the [Proxy] field of the transport. *)
Inductive ProxyFunc := ProxyFromEnvironment.

(** [http.Transport], with the fields [NewSigningProxy] sets; [DialContext]
    is the method of the dialer held here. *)
Record Transport := mkTransport {
  Proxy : ProxyFunc;
  DialContext : net.Dialer;
  MaxIdleConns : Z;
  IdleConnTimeout : Z;
  TLSHandshakeTimeout : Z }.

Record ReverseProxy := mkReverseProxy {
  Director : url.Store → http.Request → Z → Frame;
  FlushInterval : Z;
  Transport_ : Transport }.
End httputil.

(** Convert config ints to duration: [time.Duration(n) * time.Second]. *)
Definition seconds (n : Z) : Z := time.mul (time.Duration n) time.Second.

Section NewSigningProxy.
Variable newURL : string → string → error + url.URL.
Variable SignSDKRequest : request.Handler.
(** The package variable [config], as [main] has unpacked it. *)
Variable cfg : configuration.

Definition NewSigningProxy (target : url.URL) (creds : credentials.Credentials)
    (region : string) : httputil.ReverseProxy :=
  let dialerTimeout := seconds (DialTimeout cfg) in
  let dialerKeepAlive := seconds (DialKeepAlive cfg) in
  let idleTimeout := seconds (IdleConnTimeout cfg) in
  let flushInter := seconds (FlushInterval cfg) in
  let transport :=
    httputil.mkTransport httputil.ProxyFromEnvironment
      (net.mkDialer dialerTimeout dialerKeepAlive true)
      100 idleTimeout (time.mul 10 time.Second) in
  httputil.mkReverseProxy (director newURL SignSDKRequest target creds region)
    flushInter transport.
End NewSigningProxy.

(** The error reading the body of a request to the end gives, none when it
    has no body. *)
Definition readError (r : http.Request) : option error :=
  match http.Body r with
  | Some body => (ioutil.ReadAll body).2
  | None => None
  end.

(** ** Inputs at the edges *)

Module Edge.
(** A configuration whose dial timeout is one second more than an [int64]
    of nanoseconds holds. *)
Definition longDial : configuration :=
  mkConfiguration "https://search.example.com" 8080 EmptyString "us-east-1"
    0 90 9223372037 30.
End Edge.

(** * Properties *)

(** Unfolds the director up to the call of [awsReq.Sign()]. *)
Ltac unfold_before_sign :=
  unfold beforeSign, shareURL, bufferBody, prepare, request.New, rewriteDestination,
    request.SetBufferBody, request.with_Body, request.with_HTTPRequest,
    http.with_Host, http.with_Body, http.with_URL;
  cbn.

(** Splits on what [make] answers, on whether the request has a body and
    on what reading it gives. *)
Ltac split_before_sign make :=
  destruct (make _ _); cbn;
  match goal with
  | r : http.Request |- _ => destruct (http.Body r); cbn
  end;
  try match goal with
  | |- context [ioutil.ReadAll ?b] => destruct (ioutil.ReadAll b) as [? [?|]]; cbn
  end.

(** ** Readers and the store *)

Lemma ReadAll_NewBuffer (buf : list Byte.byte) :
  ioutil.ReadAll (ioutil.NopCloser (bytes.NewBuffer buf)) = (buf, None).
Proof. cbn. by rewrite app_nil_r. Qed.

Lemma put_same (l : loc) (u : url.URL) (σ : url.Store) : url.put l u σ l = u.
Proof. unfold url.put. by rewrite decide_True. Qed.

Lemma put_other (l l' : loc) (u : url.URL) (σ : url.Store) :
  l' ≠ l → url.put l u σ l' = σ l'.
Proof. intros Hne. unfold url.put. by rewrite decide_False. Qed.

Lemma fresh_ne (l : loc) : l ≠ url.fresh l.
Proof. unfold url.fresh. lia. Qed.

(** ** The header loop *)

(** Visiting entries with distinct keys in any order builds the union in
    which the visited entries win. *)
Lemma mergeInOrder_union (l : list (string * list string)) (h : gmap string (list string)) :
  NoDup l.*1 → mergeInOrder l h = list_to_map l ∪ h.
Proof.
  unfold mergeInOrder. revert h.
  induction l as [|[k v] l IH]; intros h Hnd; cbn.
  - by rewrite (left_id_L ∅ (∪)).
  - apply NoDup_cons in Hnd as [Hk Hnd].
    rewrite IH by done.
    rewrite <- insert_union_l.
    by rewrite insert_union_r by by apply not_elem_of_list_to_map_1.
Qed.

Lemma mergeInOrder_any_order (l : list (string * list string))
    (signed h : gmap string (list string)) :
  l ≡ₚ map_to_list signed → mergeInOrder l h = signed ∪ h.
Proof.
  intros Hp.
  assert (NoDup l.*1) as Hnd.
  { rewrite Hp. apply NoDup_fst_map_to_list. }
  rewrite mergeInOrder_union by done.
  by rewrite (list_to_map_proper _ _ Hnd Hp), list_to_map_to_list.
Qed.

Lemma mergeHeaders_union (signed h : gmap string (list string)) :
  mergeHeaders signed h = signed ∪ h.
Proof. by apply mergeInOrder_any_order. Qed.

Lemma mergeHeaders_lookup (signed h : gmap string (list string)) (k : string) :
  mergeHeaders signed h !! k =
  match signed !! k with Some v => Some v | None => h !! k end.
Proof.
  rewrite mergeHeaders_union, lookup_union.
  destruct (signed !! k), (h !! k); done.
Qed.


Lemma no_entry_of_key {A} (l : list (string * A)) (k : string) :
  k ∉ l.*1 → filter (λ kv, kv.1 = k) l = [].
Proof.
  induction l as [|[k' v'] l IH]; intros Hk; [done|].
  cbn in Hk. apply not_elem_of_cons in Hk as [Hne Hk].
  rewrite filter_cons_False by (cbn; congruence). by apply IH.
Qed.

(** In a list with distinct keys the entries under one key are one. *)
Lemma entries_of_key {A} (l : list (string * A)) (k : string) (v : A) :
  NoDup l.*1 → (k, v) ∈ l → filter (λ kv, kv.1 = k) l = [(k, v)].
Proof.
  induction l as [|[k' v'] l IH]; intros Hnd Hin.
  - by apply elem_of_nil in Hin.
  - cbn in Hnd. apply NoDup_cons in Hnd as [Hk Hnd].
    apply elem_of_cons in Hin as [Heq|Hin].
    + injection Heq as <- <-.
      rewrite filter_cons_True by done.
      by rewrite no_entry_of_key.
    + assert (k' ≠ k) as Hne.
      { intros ->. apply Hk. by apply (list_elem_of_fmap_2 fst _ (k, v)). }
      rewrite filter_cons_False by done. by apply IH.
Qed.

Lemma entries_of_key_map {A} (m : gmap string A) (k : string) (v : A) :
  m !! k = Some v → filter (λ kv, kv.1 = k) (map_to_list m) = [(k, v)].
Proof.
  intros Hk. apply entries_of_key.
  - apply NoDup_fst_map_to_list.
  - by apply elem_of_map_to_list.
Qed.

(** ** The frame in which the request is signed *)

Section DirectorFacts.
Context (newURL : string → string → error + url.URL) (SignSDKRequest : request.Handler).
Context (target : url.URL) (creds : credentials.Credentials) (region : string).

Lemma beforeSign_req σ r now :
  req (beforeSign newURL target creds region σ r now) =
  http.mkRequest (http.Method r) (http.URL r) (http.Header r)
    (match http.Body r with
     | Some body => Some (ioutil.NopCloser (bytes.NewBuffer (ioutil.ReadAll body).1))
     | None => None
     end)
    (url.Host target).
Proof. unfold_before_sign. split_before_sign newURL; reflexivity. Qed.

Lemma beforeSign_store σ r now :
  store (beforeSign newURL target creds region σ r now) (http.URL r) =
  rewritten target (σ (http.URL r)).
Proof.
  unfold_before_sign. split_before_sign newURL;
    rewrite put_other by apply fresh_ne; by rewrite !put_same.
Qed.

Lemma beforeSign_awsReq σ r now :
  awsReq (beforeSign newURL target creds region σ r now) =
  request.mkRequest (aws.mkConfig creds region)
    (metadata.mkClientInfo "es" EmptyString EmptyString EmptyString)
    now 0
    (http.mkRequest (sdkMethod r) (http.URL r) ∅ None EmptyString)
    (payload r) (sdkError newURL σ r).
Proof.
  unfold sdkError, payload, sdkMethod.
  unfold_before_sign. rewrite !put_same. cbn.
  split_before_sign newURL; reflexivity.
Qed.

Lemma beforeSign_logged σ r now :
  logged (beforeSign newURL target creds region σ r now) =
  match http.Body r with
  | Some body =>
      match (ioutil.ReadAll body).2 with
      | Some e => ["error reading request body: " +:+ e +:+ LF]
      | None => []
      end
  | None => []
  end.
Proof. unfold_before_sign. split_before_sign newURL; reflexivity. Qed.

Lemma signedView_eq σ r now :
  signedView newURL target creds region σ r now =
  request.mkView creds region "es" EmptyString EmptyString
    (sdkMethod r) (rewritten target (σ (http.URL r))) EmptyString ∅ now 0 (payload r).
Proof.
  unfold signedView, request.view.
  rewrite beforeSign_awsReq. cbn -[beforeSign]. by rewrite beforeSign_store.
Qed.

(** [awsReq.Sign()] in the director: skipped when the SDK request carries
    an error, otherwise the one handler applied to [signedView]. *)
Lemma sign_beforeSign σ r now :
  let f := beforeSign newURL target creds region σ r now in
  sign SignSDKRequest f =
  match sdkError newURL σ r with
  | Some e => (mkFrame (store f) (req f) (awsReq f)
                 (logged f ++ ["error signing: " +:+ e +:+ LF]), Some e)
  | None =>
      let e := SignSDKRequest (signedView newURL target creds region σ r now) in
      (mkFrame (url.put (http.URL r)
                  (url.with_RawQuery (request.eRawQuery e) (store f (http.URL r)))
                  (store f))
               (req f)
         (request.with_Error (request.eError e)
            (request.with_HTTPRequest
               (http.with_Header (request.eHeader e) (request.HTTPRequest (awsReq f)))
               (awsReq f)))
         (match request.eError e with
          | Some err => logged f ++ ["error signing: " +:+ err +:+ LF]
          | None => logged f
          end),
       request.eError e)
  end.
Proof.
  cbn zeta. unfold signedView.
  unfold sign, request.Sign, handlers, request.Run, request.PushBack.
  cbn [snd fst]. rewrite beforeSign_awsReq. cbn [request.Error].
  destruct (sdkError newURL σ r) as [e|]; [done|].
  cbn. done.
Qed.

Lemma signedHeader_eq σ r now :
  signedHeader newURL SignSDKRequest target creds region σ r now =
  match sdkError newURL σ r with
  | Some _ => ∅
  | None => request.eHeader
              (SignSDKRequest (signedView newURL target creds region σ r now))
  end.
Proof.
  unfold signedHeader. rewrite sign_beforeSign. cbn zeta.
  destruct (sdkError newURL σ r); cbn -[beforeSign];
    by rewrite ?beforeSign_awsReq.
Qed.

Lemma signError_eq σ r now :
  signError newURL SignSDKRequest target creds region σ r now =
  match sdkError newURL σ r with
  | Some e => Some e
  | None => request.eError
              (SignSDKRequest (signedView newURL target creds region σ r now))
  end.
Proof.
  unfold signError. rewrite sign_beforeSign. cbn zeta.
  by destruct (sdkError newURL σ r).
Qed.

Lemma director_req σ r now :
  req (director newURL SignSDKRequest target creds region σ r now) =
  http.with_Header
    (mergeHeaders (signedHeader newURL SignSDKRequest target creds region σ r now)
                  (http.Header r))
    (req (beforeSign newURL target creds region σ r now)).
Proof.
  unfold director, writeSignedHeaders, signedHeader. cbn -[beforeSign sign].
  rewrite sign_beforeSign. cbn zeta.
  destruct (sdkError newURL σ r); cbn -[beforeSign];
    by rewrite beforeSign_req.
Qed.

Lemma director_store σ r now :
  store (director newURL SignSDKRequest target creds region σ r now) (http.URL r) =
  match sdkError newURL σ r with
  | Some _ => rewritten target (σ (http.URL r))
  | None => url.with_RawQuery
              (request.eRawQuery
                 (SignSDKRequest (signedView newURL target creds region σ r now)))
              (rewritten target (σ (http.URL r)))
  end.
Proof.
  unfold director, writeSignedHeaders. cbn -[beforeSign sign].
  rewrite sign_beforeSign. cbn zeta.
  destruct (sdkError newURL σ r); cbn -[beforeSign].
  - apply beforeSign_store.
  - by rewrite put_same, beforeSign_store.
Qed.


Lemma director_logged σ r now :
  logged (director newURL SignSDKRequest target creds region σ r now) =
  logged (beforeSign newURL target creds region σ r now) ++
  match signError newURL SignSDKRequest target creds region σ r now with
  | Some e => ["error signing: " +:+ e +:+ LF]
  | None => []
  end.
Proof.
  rewrite signError_eq.
  unfold director, writeSignedHeaders. cbn -[beforeSign sign].
  rewrite sign_beforeSign. cbn zeta.
  destruct (sdkError newURL σ r); cbn -[beforeSign]; [done|].
  destruct (request.eError _); [done|]. by rewrite app_nil_r.
Qed.

(** ** The claims about the director *)

(** C1. The body buffering preserves the bytes of the body: what the inbound
    body delivers when it is read to the end is the payload the signing
    handler is given, and it is what the body of the forwarded request
    delivers, without an error. *)
Theorem buffering_preserves_body σ r now body :
  http.Body r = Some body →
  request.vBody (signedView newURL target creds region σ r now)
    = (ioutil.ReadAll body).1
  ∧ ∃ body',
      http.Body (req (director newURL SignSDKRequest target creds region σ r now))
        = Some body'
      ∧ ioutil.ReadAll body' = ((ioutil.ReadAll body).1, None).
Proof.
  intros Hbody. split.
  - rewrite signedView_eq. cbn. unfold payload. by rewrite Hbody.
  - rewrite director_req, beforeSign_req, Hbody. cbn.
    eexists. split; [done|]. apply ReadAll_NewBuffer.
Qed.


(** C3. The header merge overwrites: a key of the signed header set is
    mapped, on the outbound request, to exactly the signed value and has one
    entry; a key that is not in the signed set keeps what it had.  The result
    does not depend on the order in which the loop visits the signed set. *)
Theorem merge_overwrites σ r now k :
  let signed := signedHeader newURL SignSDKRequest target creds region σ r now in
  let out :=
    http.Header (req (director newURL SignSDKRequest target creds region σ r now)) in
  match signed !! k with
  | Some v => out !! k = Some v ∧ filter (λ kv, kv.1 = k) (map_to_list out) = [(k, v)]
  | None => out !! k = http.Header r !! k
  end
  ∧ ∀ l, l ≡ₚ map_to_list signed → mergeInOrder l (http.Header r) = out.
Proof.
  cbn zeta. rewrite director_req. cbn.
  set (signed := signedHeader _ _ _ _ _ _ _ _).
  split.
  - pose proof (mergeHeaders_lookup signed (http.Header r) k) as Hk.
    destruct (signed !! k) as [v|]; [|done].
    split; [done|]. by apply entries_of_key_map.
  - intros l Hl. by rewrite mergeHeaders_union, (mergeInOrder_any_order l signed).
Qed.

(** C4. The destination is rewritten before the request is signed: in the
    frame in which [awsReq.Sign()] is called the URL of the request has the
    scheme and the host of the target, the SDK request holds that same URL
    object and no Host of its own, and the signed headers are those the
    handler computes from this view. *)
Theorem rewrite_precedes_signing σ r now :
  let f := beforeSign newURL target creds region σ r now in
  let v := signedView newURL target creds region σ r now in
  url.Scheme (store f (http.URL (req f))) = url.Scheme target
  ∧ url.Host (store f (http.URL (req f))) = url.Host target
  ∧ http.Host (req f) = url.Host target
  ∧ http.URL (request.HTTPRequest (awsReq f)) = http.URL (req f)
  ∧ url.Scheme (request.vURL v) = url.Scheme target
  ∧ url.Host (request.vURL v) = url.Host target
  ∧ request.vHost v = EmptyString
  ∧ director newURL SignSDKRequest target creds region σ r now
      = writeSignedHeaders (sign SignSDKRequest f).1
  ∧ signedHeader newURL SignSDKRequest target creds region σ r now
      = match sdkError newURL σ r with
        | Some _ => ∅
        | None => request.eHeader (SignSDKRequest v)
        end.
Proof.
  cbn zeta. rewrite signedView_eq, beforeSign_req, beforeSign_awsReq. cbn -[beforeSign].
  rewrite beforeSign_store. cbn -[beforeSign].
  repeat split; try done.
  rewrite signedHeader_eq. by rewrite signedView_eq.
Qed.


(** C7, amended. When reading the body fails the failure is logged and the
    director goes on with the bytes that were read before the failure: they
    are the payload the signing handler is given and the body of the
    forwarded request. *)
Theorem read_error_keeps_bytes_read σ r now body buf e :
  http.Body r = Some body →
  ioutil.ReadAll body = (buf, Some e) →
  let f := director newURL SignSDKRequest target creds region σ r now in
  head (logged f) = Some ("error reading request body: " +:+ e +:+ LF)
  ∧ request.vBody (signedView newURL target creds region σ r now) = buf
  ∧ http.Body (req f) = Some (ioutil.NopCloser (bytes.NewBuffer buf))
  ∧ payload (req f) = buf.
Proof.
  intros Hbody Hread. cbn zeta.
  rewrite director_logged, beforeSign_logged, director_req, beforeSign_req.
  rewrite signedView_eq. unfold payload. cbn. rewrite Hbody, Hread. cbn.
  by rewrite app_nil_r.
Qed.

(** C9. A request without a body is not buffered: the frame is left as
    [request.New] made it, the signing handler is given the empty payload,
    nothing is logged before signing and the forwarded request has no body
    either. *)
Theorem nil_body_is_not_buffered σ r now :
  http.Body r = None →
  bufferBody (prepare newURL target creds region σ r now)
    = prepare newURL target creds region σ r now
  ∧ request.vBody (signedView newURL target creds region σ r now) = []
  ∧ logged (beforeSign newURL target creds region σ r now) = []
  ∧ http.Body (req (director newURL SignSDKRequest target creds region σ r now)) = None.
Proof.
  intros Hbody. repeat split.
  - unfold bufferBody, prepare, request.New, rewriteDestination. cbn.
    destruct (newURL _ _); cbn; by rewrite Hbody.
  - rewrite signedView_eq. cbn. unfold payload. by rewrite Hbody.
  - by rewrite beforeSign_logged, Hbody.
  - by rewrite director_req, beforeSign_req, Hbody.
Qed.

(** C10, amended. The director leaves the method, the address of the URL
    and the path as they were.  Besides the scheme and the host, which the
    director sets, one field of the URL differs on exit: the raw query
    string, which the signer stores in the URL object it shares with the
    request.  It is the one the signer has stored, and the one the request
    came with when signing is skipped. *)
Theorem director_frame σ r now :
  let f := director newURL SignSDKRequest target creds region σ r now in
  let u := store f (http.URL r) in
  http.Method (req f) = http.Method r
  ∧ http.URL (req f) = http.URL r
  ∧ url.Path u = url.Path (σ (http.URL r))
  ∧ url.RawQuery u
    = match sdkError newURL σ r with
      | Some _ => url.RawQuery (σ (http.URL r))
      | None => request.eRawQuery
                  (SignSDKRequest (signedView newURL target creds region σ r now))
      end
  ∧ u = url.with_RawQuery (url.RawQuery u) (rewritten target (σ (http.URL r))).
Proof.
  cbn zeta. rewrite director_req, beforeSign_req, director_store. cbn.
  destruct (sdkError newURL σ r); repeat split; done.
Qed.
End DirectorFacts.

(** ** The claim about [main] *)

Lemma println_calls_nothing (d : string) : ¬ callsListenAndServe [Println d].
Proof.
  intros (addr & u & c & rg & Hin).
  apply list_elem_of_singleton in Hin. discriminate.
Qed.

Lemma opens_calls (bind : string → option error) (t : list Action) :
  opensListener bind t → callsListenAndServe t.
Proof. intros (addr & u & c & rg & Hin & _). by exists addr, u, c, rg. Qed.

(** [main] either stops at one of its four checks with one line printed, or
    passes them all, announces the address and calls [ListenAndServe]. *)
Lemma main_cases (url_Parse : string → error + url.URL)
    (unmarshal : configuration * option error) (credChain : credentials.Credentials) :
  (fatal url_Parse unmarshal credChain
   ∧ ∃ diagnostic, main url_Parse unmarshal credChain = [Println diagnostic])
  ∨ (¬ fatal url_Parse unmarshal credChain
     ∧ ∃ addr targetURL,
         url_Parse (Target unmarshal.1) = inr targetURL
         ∧ addr = ListenAddress unmarshal.1 +:+ ":" +:+ pretty (Port unmarshal.1)
         ∧ main url_Parse unmarshal credChain
           = [Printf ("Listening on " +:+ addr +:+ LF);
              ListenAndServe addr targetURL credChain (Region unmarshal.1)]).
Proof.
  destruct unmarshal as [cfg err]. unfold fatal, main. cbn [fst snd].
  destruct err as [e|].
  { left. split; [by left | by eexists]. }
  case_decide as Htarget.
  { left. split; [right; by left | by eexists]. }
  destruct (url_Parse (Target cfg)) as [e|targetURL] eqn:Hparse.
  { left. split; [do 2 right; left; by eexists | by eexists]. }
  unfold credentials.Get. destruct credChain as [e|value].
  { left. split; [do 3 right; by eexists | by eexists]. }
  right. split.
  - intros [H|[H|[[e H]|[e H]]]]; congruence.
  - by do 2 eexists.
Qed.

(** C8, amended. Start-up stops before [http.ListenAndServe] is called in
    exactly four cases: the configuration cannot be decoded, no target is
    set, the target does not parse, or no credentials can be had.  In each
    of them [main] prints one diagnostic and returns without opening the
    listener.  In every other case it announces the address and calls
    [ListenAndServe], whose error it drops: the listener is open if that
    address can be bound, and if it cannot, start-up ends without a listener
    and without a diagnostic. *)
Theorem startup_stops_on_configuration_errors
    (url_Parse : string → error + url.URL)
    (unmarshal : configuration * option error) (credChain : credentials.Credentials) :
  let t := main url_Parse unmarshal credChain in
  (fatal url_Parse unmarshal credChain ↔ ¬ callsListenAndServe t)
  ∧ (fatal url_Parse unmarshal credChain →
     (∃ diagnostic, t = [Println diagnostic]) ∧ ∀ bind, ¬ opensListener bind t)
  ∧ (¬ fatal url_Parse unmarshal credChain →
     ∃ addr targetURL,
       url_Parse (Target unmarshal.1) = inr targetURL
       ∧ addr = ListenAddress unmarshal.1 +:+ ":" +:+ pretty (Port unmarshal.1)
       ∧ t = [Printf ("Listening on " +:+ addr +:+ LF);
              ListenAndServe addr targetURL credChain (Region unmarshal.1)]
       ∧ ∀ bind, opensListener bind t ↔ bind addr = None).
Proof.
  cbn zeta.
  destruct (main_cases url_Parse unmarshal credChain)
    as [[Hf [d Hd]]|[Hnf (addr & u & Hparse & Haddr & Ht)]].
  - rewrite Hd. split; [split|split].
    + intros _. apply println_calls_nothing.
    + done.
    + intros _. split; [by eexists|].
      intros bind Hopen. by apply opens_calls, println_calls_nothing in Hopen.
    + intros Hnf. by destruct Hnf.
  - rewrite Ht. split; [split|split].
    + intros Hf. by destruct Hnf.
    + intros Hno. destruct Hno. exists addr, u, credChain, (Region unmarshal.1).
      apply elem_of_cons. right. by apply list_elem_of_singleton.
    + intros Hf. by destruct Hnf.
    + intros _. exists addr, u. split; [done|]. split; [done|]. split; [done|].
      intros bind. split.
      * intros (a & u' & c & rg & Hin & Hbind).
        apply elem_of_cons in Hin as [Hin|Hin]; [discriminate|].
        apply list_elem_of_singleton in Hin. by injection Hin as -> _ _ _.
      * intros Hbind. exists addr, u, credChain, (Region unmarshal.1).
        split; [|done]. apply elem_of_cons. right. by apply list_elem_of_singleton.
Qed.

(** * The theorems at concrete inputs *)

(** C1 on a body that arrives in two pieces. *)
Lemma buffering_preserves_body_witness :
  request.vBody
    (signedView Example.newURL Example.target (inr Example.value) "us-east-1"
       Example.urls Example.post 1440938160)
    = Example.hello
  ∧ ∃ body',
      http.Body
        (req (director Example.newURL Example.markSigner Example.target
                (inr Example.value) "us-east-1" Example.urls Example.post 1440938160))
        = Some body'
      ∧ ioutil.ReadAll body' = (Example.hello, None).
Proof.
  exact (buffering_preserves_body Example.newURL Example.markSigner Example.target
           (inr Example.value) "us-east-1" Example.urls Example.post 1440938160
           _ eq_refl).
Defined.





(** C7 on a body whose connection breaks after two bytes. *)
Lemma read_error_keeps_bytes_read_witness :
  head (logged (director Example.newURL Example.markSigner Example.target
                  (inr Example.value) "us-east-1" Example.urls Example.broken 1440938160))
    = Some ("error reading request body: unexpected EOF" +:+ LF)
  ∧ request.vBody
      (signedView Example.newURL Example.target (inr Example.value) "us-east-1"
         Example.urls Example.broken 1440938160)
    = [Byte.x68; Byte.x65]
  ∧ http.Body
      (req (director Example.newURL Example.markSigner Example.target
              (inr Example.value) "us-east-1" Example.urls Example.broken 1440938160))
    = Some (ioutil.NopCloser (bytes.NewBuffer [Byte.x68; Byte.x65]))
  ∧ payload
      (req (director Example.newURL Example.markSigner Example.target
              (inr Example.value) "us-east-1" Example.urls Example.broken 1440938160))
    = [Byte.x68; Byte.x65].
Proof.
  exact (read_error_keeps_bytes_read Example.newURL Example.markSigner Example.target
           (inr Example.value) "us-east-1" Example.urls Example.broken 1440938160
           _ _ _ eq_refl eq_refl).
Defined.

(** C7 as stated fails there: the read fails, and neither the payload that
    is signed nor the body that is forwarded is empty. *)
Lemma read_error_payload_not_empty :
  (∃ body, http.Body Example.broken = Some body
           ∧ (ioutil.ReadAll body).2 = Some "unexpected EOF")
  ∧ request.vBody
      (signedView Example.newURL Example.target (inr Example.value) "us-east-1"
         Example.urls Example.broken 1440938160)
    ≠ []
  ∧ payload
      (req (director Example.newURL Example.markSigner Example.target
              (inr Example.value) "us-east-1" Example.urls Example.broken 1440938160))
    ≠ [].
Proof.
  split; [eexists; split; reflexivity|]. split; vm_compute; discriminate.
Qed.

(** C8 on a complete configuration: [ListenAndServe] is called, and the
    listener is open on a system that can bind the address. *)
Lemma startup_witness :
  main Example.url_Parse (Example.cfg, None) (inr Example.value)
  = [Printf ("Listening on :8080" +:+ LF);
     ListenAndServe ":8080" Example.target (inr Example.value) "us-east-1"]
  ∧ opensListener Example.bind
      (main Example.url_Parse (Example.cfg, None) (inr Example.value)).
Proof.
  split; [reflexivity|].
  destruct (startup_stops_on_configuration_errors Example.url_Parse
              (Example.cfg, None) (inr Example.value)) as (_ & _ & Hopen).
  destruct Hopen as (addr & u & _ & -> & _ & Hbind).
  - intros [H|[H|[[e H]|[e H]]]]; [by apply H|discriminate H..].
  - by apply Hbind.
Defined.

(** C8 as stated fails twice.  On a configuration that cannot be decoded a
    target is set, it parses and credentials are at hand, and yet [main]
    stops without calling [ListenAndServe].  With the port -1 none of the
    cases holds and nothing but the announcement is printed, and yet no
    listener is open: the address cannot be bound and the error is
    dropped. *)
Lemma decode_error_is_fatal_too :
  (main Example.url_Parse (Example.cfg, Some "1 error(s) decoding: port")
        (inr Example.value)
     = [Println "Could not decode config!"]
   ∧ ¬ callsListenAndServe
         (main Example.url_Parse (Example.cfg, Some "1 error(s) decoding: port")
            (inr Example.value))
   ∧ ¬ (Target Example.cfg = EmptyString
        ∨ (∃ e, Example.url_Parse (Target Example.cfg) = inl e)
        ∨ (∃ e, credentials.Get (inr Example.value) = inl e)))
  ∧ (main Example.url_Parse (Example.badPort, None) (inr Example.value)
       = [Printf ("Listening on :-1" +:+ LF);
          ListenAndServe ":-1" Example.target (inr Example.value) "us-east-1"]
     ∧ ¬ opensListener Example.bind
           (main Example.url_Parse (Example.badPort, None) (inr Example.value))
     ∧ ¬ fatal Example.url_Parse (Example.badPort, None) (inr Example.value)).
Proof.
  split; [split; [reflexivity|split]|split; [reflexivity|split]].
  - apply println_calls_nothing.
  - intros [H|[[e H]|[e H]]]; discriminate H.
  - intros (addr & u & c & rg & Hin & Hbind).
    apply elem_of_cons in Hin as [Hin|Hin]; [discriminate|].
    apply list_elem_of_singleton in Hin. injection Hin as -> _ _ _. discriminate.
  - intros [H|[H|[[e H]|[e H]]]]; [by apply H|discriminate H..].
Qed.

(** C9 on a GET request. *)
Lemma nil_body_is_not_buffered_witness :
  bufferBody (prepare Example.newURL Example.target (inr Example.value) "us-east-1"
                Example.urls Example.get 1440938160)
    = prepare Example.newURL Example.target (inr Example.value) "us-east-1"
        Example.urls Example.get 1440938160
  ∧ request.vBody
      (signedView Example.newURL Example.target (inr Example.value) "us-east-1"
         Example.urls Example.get 1440938160)
    = []
  ∧ logged (beforeSign Example.newURL Example.target (inr Example.value) "us-east-1"
              Example.urls Example.get 1440938160)
    = []
  ∧ http.Body
      (req (director Example.newURL Example.markSigner Example.target
              (inr Example.value) "us-east-1" Example.urls Example.get 1440938160))
    = None.
Proof.
  exact (nil_body_is_not_buffered Example.newURL Example.markSigner Example.target
           (inr Example.value) "us-east-1" Example.urls Example.get 1440938160 eq_refl).
Defined.

(** C10 as stated fails with a handler that stores the re-encoded query in
    the URL it signs: the raw query of the request is another one on exit. *)
Lemma signer_rewrites_raw_query :
  url.RawQuery (Example.urls (http.URL Example.get)) = "q=a+b"
  ∧ url.RawQuery
      (store (director Example.newURL Example.canonSigner Example.target
                (inr Example.value) "us-east-1" Example.urls Example.get 1440938160)
             (http.URL
                (req (director Example.newURL Example.canonSigner Example.target
                        (inr Example.value) "us-east-1" Example.urls Example.get
                        1440938160))))
    = "q=a%20b"
  ∧ url.RawQuery
      (store (director Example.newURL Example.canonSigner Example.target
                (inr Example.value) "us-east-1" Example.urls Example.get 1440938160)
             (http.URL Example.get))
    ≠ url.RawQuery (Example.urls (http.URL Example.get)).
Proof.
  split; [reflexivity|]. split; [reflexivity|]. vm_compute. discriminate.
Qed.

(** * Further properties of the code *)

(** ** Durations *)

Lemma int64_bounds (z : Z) : (- 2 ^ 63 ≤ time.int64 z < 2 ^ 63)%Z.
Proof.
  unfold time.int64.
  pose proof (Z.mod_pos_bound (z + 2 ^ 63) (2 ^ 64)) as H. lia.
Qed.

Lemma int64_small (z : Z) : (- 2 ^ 63 ≤ z < 2 ^ 63)%Z → time.int64 z = z.
Proof.
  intros Hz. unfold time.int64. rewrite Z.mod_small by lia. lia.
Qed.

Lemma seconds_small (n : Z) :
  (- 9223372036 ≤ n ≤ 9223372036)%Z → seconds n = (n * 1000000000)%Z.
Proof.
  intros Hn. unfold seconds, time.mul, time.Duration, time.Second.
  rewrite (int64_small n) by lia. apply int64_small. lia.
Qed.

(** X1. The conversion of a number of seconds to a duration is exact for
    the numbers from -9223372036 to 9223372036 and for no other [int]: past
    them the product wraps around, and up to 18446744073 seconds it comes
    out negative.  In the exact range the duration has the sign of the
    number and is zero for zero alone. *)
Theorem seconds_exact_iff (n : Z) :
  (- 2 ^ 63 ≤ n < 2 ^ 63)%Z →
  (seconds n = (n * 1000000000)%Z ↔ (- 9223372036 ≤ n ≤ 9223372036)%Z)
  ∧ ((- 9223372036 ≤ n ≤ 9223372036)%Z →
     (0 ≤ n ↔ 0 ≤ seconds n)%Z ∧ (seconds n = 0 ↔ n = 0)%Z)
  ∧ ((9223372036 < n ≤ 18446744073)%Z → (seconds n < 0)%Z).
Proof.
  intros Hn. split; [split|split].
  - intros Heq. pose proof (int64_bounds (time.Duration n * time.Second)) as Hb.
    unfold seconds, time.mul in Heq. rewrite Heq in Hb. lia.
  - apply seconds_small.
  - intros Hs. rewrite (seconds_small n Hs). lia.
  - intros Hbig. unfold seconds, time.mul, time.Duration, time.Second.
    rewrite (int64_small n) by lia. unfold time.int64.
    replace ((n * 1000000000 + 2 ^ 63) mod 2 ^ 64)%Z
      with (n * 1000000000 + 2 ^ 63 - 2 ^ 64)%Z; [lia|].
    apply Z.mod_unique with (q := 1%Z); lia.
Qed.

(** X2. For a configuration whose four timing values are between 0 and
    9223372036 seconds, the proxy [NewSigningProxy] returns has exactly these
    times, in nanoseconds, as flush interval, dial timeout, dial keep-alive
    and idle connection timeout; the idle timeout is zero, which makes the
    transport keep idle connections without limit, only when it is
    configured as zero.  The pool ceiling is 100 and the TLS handshake
    timeout ten seconds whatever the configuration says. *)
Theorem NewSigningProxy_timing
    (newURL : string → string → error + url.URL) (SignSDKRequest : request.Handler)
    (cfg : configuration) (target : url.URL) (creds : credentials.Credentials)
    (region : string) :
  (0 ≤ FlushInterval cfg ≤ 9223372036)%Z →
  (0 ≤ DialTimeout cfg ≤ 9223372036)%Z →
  (0 ≤ DialKeepAlive cfg ≤ 9223372036)%Z →
  (0 ≤ IdleConnTimeout cfg ≤ 9223372036)%Z →
  let p := NewSigningProxy newURL SignSDKRequest cfg target creds region in
  let t := httputil.Transport_ p in
  httputil.FlushInterval p = (FlushInterval cfg * 1000000000)%Z
  ∧ net.Timeout (httputil.DialContext t) = (DialTimeout cfg * 1000000000)%Z
  ∧ net.KeepAlive (httputil.DialContext t) = (DialKeepAlive cfg * 1000000000)%Z
  ∧ httputil.IdleConnTimeout t = (IdleConnTimeout cfg * 1000000000)%Z
  ∧ (httputil.IdleConnTimeout t = 0 ↔ IdleConnTimeout cfg = 0)%Z
  ∧ httputil.MaxIdleConns t = 100%Z
  ∧ httputil.TLSHandshakeTimeout t = 10000000000%Z.
Proof.
  intros Hf Hd Hk Hi. cbn zeta. unfold NewSigningProxy. cbn.
  rewrite !seconds_small by lia.
  repeat split; try lia.
Qed.

(** ** The header loop *)

(** X3. Writing signed headers composes and is idempotent: writing one set
    and then a second is writing the second laid over the first, and writing
    the same set again changes nothing. *)
Theorem mergeHeaders_composes (s1 s2 h : gmap string (list string)) :
  mergeHeaders s2 (mergeHeaders s1 h) = mergeHeaders (s2 ∪ s1) h
  ∧ mergeHeaders s1 (mergeHeaders s1 h) = mergeHeaders s1 h.
Proof.
  rewrite !mergeHeaders_union. split.
  - by rewrite (assoc_L (∪)).
  - by rewrite (assoc_L (∪)), (idemp_L (∪)).
Qed.

Section DirectorMore.
Context (newURL : string → string → error + url.URL) (SignSDKRequest : request.Handler).
Context (target : url.URL) (creds : credentials.Credentials) (region : string).

(** X4. The director never drops a header: the keys of the forwarded
    request are the keys it came with together with the keys of the signed
    set, so there are at least as many as before. *)
Theorem director_keeps_header_keys σ r now :
  let out :=
    http.Header (req (director newURL SignSDKRequest target creds region σ r now)) in
  dom out
    = dom (signedHeader newURL SignSDKRequest target creds region σ r now)
      ∪ dom (http.Header r)
  ∧ size (http.Header r) ≤ size out.
Proof.
  cbn zeta. rewrite director_req. cbn. rewrite mergeHeaders_union. split.
  - apply dom_union_L.
  - rewrite <- !size_dom, dom_union_L.
    apply subseteq_size, union_subseteq_r.
Qed.

(** X5. What is forwarded is what came in and what was signed, for every
    request: the forwarded body delivers the bytes the inbound body
    delivered (all of them, or those before a read error), these are the
    payload the signing handler is given, a request has a body on exit if
    and only if it had one on entry, and the body on exit never fails to
    read. *)
Theorem director_preserves_payload σ r now :
  let out := req (director newURL SignSDKRequest target creds region σ r now) in
  payload out = payload r
  ∧ request.vBody (signedView newURL target creds region σ r now) = payload out
  ∧ (http.Body out = None ↔ http.Body r = None)
  ∧ readError out = None.
Proof.
  cbn zeta. rewrite director_req, beforeSign_req, signedView_eq.
  unfold payload, readError. cbn.
  destruct (http.Body r) as [body|]; cbn; rewrite ?app_nil_r; done.
Qed.

(** X6. What the director logs: the read error, if reading the body
    failed, and then the signing error, if signing failed, and nothing
    else.  A run without either error logs nothing. *)
Theorem director_log σ r now :
  let lg := logged (director newURL SignSDKRequest target creds region σ r now) in
  lg = match readError r with
       | Some e => ["error reading request body: " +:+ e +:+ LF]
       | None => []
       end
       ++ match signError newURL SignSDKRequest target creds region σ r now with
          | Some e => ["error signing: " +:+ e +:+ LF]
          | None => []
          end
  ∧ (lg = [] ↔
     readError r = None
     ∧ signError newURL SignSDKRequest target creds region σ r now = None)
  ∧ length lg ≤ 2.
Proof.
  cbn zeta. rewrite director_logged, beforeSign_logged. unfold readError.
  destruct (http.Body r) as [body|]; cbn;
    try destruct (ioutil.ReadAll body).2;
    destruct (signError _ _ _ _ _ _ _ _); cbn;
    repeat split; try done; try lia; intros []; done.
Qed.

(** X7. The headers and the Host field a request comes with have no part in
    what is signed: replace them by any others and the signing handler is
    given the same view and leaves the same signed headers.  The signed
    headers are then laid over whatever headers the request has. *)
Theorem signing_ignores_inbound_headers σ r now h host :
  let r' := http.with_Header h (http.with_Host host r) in
  signedView newURL target creds region σ r' now
    = signedView newURL target creds region σ r now
  ∧ request.vHeader (signedView newURL target creds region σ r now) = ∅
  ∧ signedHeader newURL SignSDKRequest target creds region σ r' now
    = signedHeader newURL SignSDKRequest target creds region σ r now
  ∧ http.Header (req (director newURL SignSDKRequest target creds region σ r' now))
    = signedHeader newURL SignSDKRequest target creds region σ r now ∪ h.
Proof.
  cbn zeta.
  assert (signedView newURL target creds region σ
            (http.with_Header h (http.with_Host host r)) now
          = signedView newURL target creds region σ r now) as Hv.
  { by rewrite !signedView_eq. }
  assert (signedHeader newURL SignSDKRequest target creds region σ
            (http.with_Header h (http.with_Host host r)) now
          = signedHeader newURL SignSDKRequest target creds region σ r now) as Hs.
  { rewrite !signedHeader_eq. by rewrite Hv. }
  repeat split; try done.
  - by rewrite signedView_eq.
  - rewrite director_req. cbn. by rewrite mergeHeaders_union, Hs.
Qed.

(** X8. Every request leaves the director addressed to the target, whether
    or not signing succeeded and whatever the signer did: its Host field is
    the host of the target, and its URL has the scheme and the host of the
    target. *)
Theorem director_addresses_target σ r now :
  let f := director newURL SignSDKRequest target creds region σ r now in
  http.Host (req f) = url.Host target
  ∧ url.Scheme (store f (http.URL (req f))) = url.Scheme target
  ∧ url.Host (store f (http.URL (req f))) = url.Host target.
Proof.
  cbn zeta. rewrite director_req, beforeSign_req. cbn -[director].
  rewrite director_store.
  by destruct (sdkError newURL σ r).
Qed.


End DirectorMore.

(** ** [main] *)

(** X10. The proxy [main] serves is the one for the configured target:
    when [main] calls [ListenAndServe], it does so on the configured address
    and port, with the proxy [NewSigningProxy] makes from the parsed target,
    the credential chain and the configured region; the director of that
    proxy gives every request the host of the parsed target and has it
    signed for that region, for the service [es] and with that chain. *)
Theorem served_proxy_is_the_configured_one
    (url_Parse : string → error + url.URL)
    (newURL : string → string → error + url.URL) (SignSDKRequest : request.Handler)
    (cfg : configuration) (err : option error) (credChain : credentials.Credentials)
    (addr : string) (t : url.URL) (c : credentials.Credentials) (rg : string) :
  ListenAndServe addr t c rg ∈ main url_Parse (cfg, err) credChain →
  url_Parse (Target cfg) = inr t
  ∧ c = credChain
  ∧ rg = Region cfg
  ∧ addr = ListenAddress cfg +:+ ":" +:+ pretty (Port cfg)
  ∧ ∀ σ r now,
      let f :=
        httputil.Director (NewSigningProxy newURL SignSDKRequest cfg t c rg) σ r now in
      let v := signedView newURL t c rg σ r now in
      http.Host (req f) = url.Host t
      ∧ request.vRegion v = Region cfg
      ∧ request.vServiceName v = "es"
      ∧ request.vCredentials v = credChain.
Proof.
  unfold main. intros Hin.
  destruct err as [e|].
  { apply list_elem_of_singleton in Hin. discriminate. }
  case_decide as Htarget.
  { apply list_elem_of_singleton in Hin. discriminate. }
  destruct (url_Parse (Target cfg)) as [e|u].
  { apply list_elem_of_singleton in Hin. discriminate. }
  unfold credentials.Get in Hin. destruct credChain as [e|value].
  { apply list_elem_of_singleton in Hin. discriminate. }
  apply elem_of_cons in Hin as [Hin|Hin]; [discriminate|].
  apply list_elem_of_singleton in Hin. injection Hin as -> -> -> ->.
  repeat split; try done.
  all: intros; cbn zeta; unfold NewSigningProxy; cbn [httputil.Director].
  - by rewrite director_req, beforeSign_req.
  - by rewrite signedView_eq.
  - by rewrite signedView_eq.
  - by rewrite signedView_eq.
Qed.

(** X11. [main] reports the first check that fails and looks no further: a
    configuration that cannot be decoded gives one fixed line, which does
    not carry the decoding error, whatever the target and the credentials
    are; a missing target gives the line that asks for one, whatever the
    credentials are; a target that does not parse gives the message of the
    parser, and missing credentials give the message of the credential
    chain. *)
Theorem main_reports_first_failure
    (url_Parse : string → error + url.URL) (cfg : configuration)
    (credChain : credentials.Credentials) :
  (∀ e, main url_Parse (cfg, Some e) credChain = [Println "Could not decode config!"])
  ∧ (Target cfg = EmptyString →
     main url_Parse (cfg, None) credChain
     = [Println "No proxy target set. Please set this either in the config file or using the --target flag"])
  ∧ (∀ e, Target cfg ≠ EmptyString → url_Parse (Target cfg) = inl e →
          main url_Parse (cfg, None) credChain = [Println e])
  ∧ (∀ e u, Target cfg ≠ EmptyString → url_Parse (Target cfg) = inr u →
            credChain = inl e →
            main url_Parse (cfg, None) credChain = [Println e]).
Proof.
  unfold main. repeat split.
  - intros Htarget. by rewrite decide_True.
  - intros e Htarget Hparse. by rewrite decide_False, Hparse.
  - intros e u Htarget Hparse ->. by rewrite decide_False, Hparse.
Qed.
(** * The further properties at concrete inputs *)

(** X1 on a dial timeout one second too long. *)
Lemma seconds_exact_iff_witness : (seconds (DialTimeout Edge.longDial) < 0)%Z.
Proof.
  apply (seconds_exact_iff (DialTimeout Edge.longDial)); cbn; lia.
Defined.

(** X2 on the values the flags default to. *)
Lemma NewSigningProxy_timing_witness :
  let p :=
    NewSigningProxy Example.newURL Example.markSigner Example.cfg Example.target
      (inr Example.value) "us-east-1" in
  let t := httputil.Transport_ p in
  httputil.FlushInterval p = 0%Z
  ∧ net.Timeout (httputil.DialContext t) = 30000000000%Z
  ∧ net.KeepAlive (httputil.DialContext t) = 30000000000%Z
  ∧ httputil.IdleConnTimeout t = 90000000000%Z
  ∧ (httputil.IdleConnTimeout t = 0 ↔ 90 = 0)%Z
  ∧ httputil.MaxIdleConns t = 100%Z
  ∧ httputil.TLSHandshakeTimeout t = 10000000000%Z.
Proof.
  apply (NewSigningProxy_timing Example.newURL Example.markSigner Example.cfg
           Example.target (inr Example.value) "us-east-1"); cbn; lia.
Defined.

(** X10 on a complete configuration. *)
Lemma served_proxy_witness :
  Example.url_Parse (Target Example.cfg) = inr Example.target
  ∧ ∀ σ r now,
      http.Host
        (req (httputil.Director
                (NewSigningProxy Example.newURL Example.markSigner Example.cfg
                   Example.target (inr Example.value) "us-east-1") σ r now))
      = "search.example.com".
Proof.
  destruct (served_proxy_is_the_configured_one Example.url_Parse Example.newURL
              Example.markSigner Example.cfg None (inr Example.value) ":8080"
              Example.target (inr Example.value) "us-east-1")
    as (Hparse & _ & _ & _ & Hdir).
  - apply elem_of_cons. right. apply list_elem_of_singleton. reflexivity.
  - split; [exact Hparse|]. intros σ r now. apply (Hdir σ r now).
Defined.
